(** * Cross-section algebra of [beam.py]

    A shallow embedding of the composable cross-section classes
    ([_UnitSquare], [_ShiftedCrosssection], [_ScaledCrossection],
    [_WeightedCrossection], [_SumCrossection], [Rectangle]) and of the
    construction methods of [_Crossection], followed by the laws that
    relate the four properties [area], [bb], [mom] and [com] of a
    combinator node to those of its children.

    Numbers.  A Python [float] is idealised as an exact rational ([Qc]);
    a Python [int] is its image in [Qc].  Numbers are floats, or ints
    within the float range.  Rounding, infinities and NaN are outside
    this model.  The dynamic type of a value is kept only where
    the source tests it ([isinstance] in [scale] and [__mul__]).  Of the
    limits of the float range, the one that raises instead of giving an
    infinity is kept: the overflow of [**], see [py_pow].

    Faults.  A property access either returns a value or raises; the
    exceptions the modelled code can raise are [TypeError] (subscripting,
    unpacking or calling a value that does not allow it),
    [ZeroDivisionError] (a division by zero), [OverflowError] (a power
    [**] whose result is beyond the float range) and [AssertionError]
    (the [assert] of [__mul__]). *)

From Stdlib Require Import ZArith QArith Qcanon Bool Lia Lqa.

Local Open Scope Qc_scope.

(** ** Numbers *)

Definition num : Type := Qc.

Definition num_of_Z (n : Z) : num := Q2Qc (inject_Z n).

(** [1. / 12], [0.5] and [-0.5] of [_UnitSquare]. *)
Definition twelfth : num := 1 / num_of_Z 12.
Definition half : num := Q2Qc (1 # 2).

(** Python's two-argument [min(a, b)]: [b] when [b < a], else [a]. *)
Definition py_min (a b : num) : num :=
  if Qclt_le_dec b a then b else a.

(** Python's two-argument [max(a, b)]: [b] when [b > a], else [a]. *)
Definition py_max (a b : num) : num :=
  if Qclt_le_dec a b then b else a.

(** ** Faults *)

Inductive exn : Type :=
| TypeError
| ZeroDivisionError
| OverflowError
| AssertionError.

Inductive result (A : Type) : Type :=
| Ok (a : A)
| Raise (e : exn).

Arguments Ok {A} a.
Arguments Raise {A} e.

Definition bind {A B : Type} (r : result A) (k : A -> result B) : result B :=
  match r with
  | Ok a => k a
  | Raise e => Raise e
  end.

Notation "x <- r ;; k" := (bind r (fun x => k))
  (at level 61, r at next level, right associativity).
Notation "' p <- r ;; k" := (bind r (fun x => match x with p => k end))
  (at level 61, p pattern, r at next level, right associativity).

(** Applying a pure function to the value of an access that may raise. *)
Definition rmap {A B : Type} (f : A -> B) (r : result A) : result B :=
  x <- r ;; Ok (f x).

(** Combining two accesses, the left one evaluated first. *)
Definition rmap2 {A B C : Type} (f : A -> B -> C)
    (r1 : result A) (r2 : result B) : result C :=
  x <- r1 ;; y <- r2 ;; Ok (f x y).

(** Python's true division [a / b]. *)
Definition py_div (a b : num) : result num :=
  if Qc_eq_dec b 0 then Raise ZeroDivisionError else Ok (a / b).

(** The magnitude from which a number rounds to no finite float:
    [2^1024 - 2^970], half a unit in the last place above the largest
    float. *)
Definition float_bound : num := num_of_Z (2 ^ 1024 - 2 ^ 970).

(** The number is beyond the float range on either side. *)
Definition float_overflows (p : num) : bool :=
  Qle_bool float_bound p || Qle_bool p (- float_bound).

(** Python's [x ** n] for a literal int [n]: a float result beyond the
    float range raises [OverflowError].  (With an int [x] the power itself
    is exact, and the same fault comes from the float product the source
    puts it in.) *)
Definition py_pow (x : num) (n : nat) : result num :=
  if float_overflows (x ^ n) then Raise OverflowError else Ok (x ^ n).

(** ** Python values that reach [scale] and [__mul__] *)

Inductive pyval : Type :=
| PyFloat (x : num)          (* a float *)
| PyInt (n : Z)              (* an int *)
| PyTuple (x y : num)        (* a 2-tuple of numbers *)
| PyNone.                    (* None *)

(** [isinstance(v, float)]. *)
Definition isinstance_float (v : pyval) : bool :=
  match v with
  | PyFloat _ => true
  | _ => false
  end.

(** [isinstance(v, (float, int))]. *)
Definition isinstance_float_int (v : pyval) : bool :=
  match v with
  | PyFloat _ | PyInt _ => true
  | _ => false
  end.

(** The number a float or an int stands for. *)
Definition num_of (v : pyval) : option num :=
  match v with
  | PyFloat x => Some x
  | PyInt n => Some (num_of_Z n)
  | _ => None
  end.

(** [v[0]] and [v[1]]: only a tuple is subscriptable. *)
Definition getitem0 (v : pyval) : result num :=
  match v with
  | PyTuple x _ => Ok x
  | _ => Raise TypeError
  end.

Definition getitem1 (v : pyval) : result num :=
  match v with
  | PyTuple _ y => Ok y
  | _ => Raise TypeError
  end.

(** [a, b = v]: only a tuple can be unpacked. *)
Definition unpack (v : pyval) : result (num * num) :=
  match v with
  | PyTuple x y => Ok (x, y)
  | _ => Raise TypeError
  end.

(** [assert b]. *)
Definition py_assert (b : bool) : result unit :=
  if b then Ok tt else Raise AssertionError.

(** ** Shapes *)

Definition point : Type := (num * num)%type.

(** A bounding box [((xmin, ymin), (xmax, ymax))]. *)
Definition box : Type := (point * point)%type.

(** One constructor per class.  [CompositeSection] carries the expression
    its [_composite] property evaluates to. *)
Inductive Crossection : Type :=
| UnitSquare
| ShiftedCrosssection (crossection : Crossection) (offset : point)
| ScaledCrossection (crossection : Crossection) (scale : pyval)
| WeightedCrossection (crossection : Crossection) (weight : num)
| SumCrossection (first second : Crossection)
| CompositeSection (composite : Crossection).

(** *** Properties *)

Fixpoint area (self : Crossection) : result num :=
  match self with
  | UnitSquare => Ok 1
  | ShiftedCrosssection c _ => area c
  | ScaledCrossection c scale =>
      a <- area c ;;
      fx <- getitem0 scale ;;
      fy <- getitem1 scale ;;
      Ok (a * fx * fy)
  | WeightedCrossection c weight =>
      a <- area c ;;
      Ok (a * weight)
  | SumCrossection first second =>
      a1 <- area first ;;
      a2 <- area second ;;
      Ok (a1 + a2)
  | CompositeSection composite => area composite
  end.

Fixpoint bb (self : Crossection) : result box :=
  match self with
  | UnitSquare => Ok ((- half, - half), (half, half))
  | ShiftedCrosssection c offset =>
      '((xmin, ymin), (xmax, ymax)) <- bb c ;;
      let '(xshift, yshift) := offset in
      Ok ((xmin + xshift, ymin + yshift), (xmax + xshift, ymax + yshift))
  | ScaledCrossection c scale =>
      '((xmin, ymin), (xmax, ymax)) <- bb c ;;
      '(xscale, yscale) <- unpack scale ;;
      Ok ((xmin * xscale, ymin * yscale), (xmax * xscale, ymax * yscale))
  | WeightedCrossection c _ => bb c
  | SumCrossection first second =>
      '((xmin1, ymin1), (xmax1, ymax1)) <- bb first ;;
      '((xmin2, ymin2), (xmax2, ymax2)) <- bb second ;;
      Ok ((py_min xmin1 xmin2, py_min ymin1 ymin2),
          (py_max xmax1 xmax2, py_max ymax1 ymax2))
  | CompositeSection composite => bb composite
  end.

Fixpoint mom (self : Crossection) : result num :=
  match self with
  | UnitSquare => Ok twelfth
  | ShiftedCrosssection c offset =>
      m <- mom c ;;
      a <- area c ;;
      Ok (m + a * snd offset * snd offset)
  | ScaledCrossection c scale =>
      m <- mom c ;;
      fx <- getitem0 scale ;;
      fy <- getitem1 scale ;;
      p <- py_pow fy 3 ;;
      Ok (m * fx * p)
  | WeightedCrossection c weight =>
      m <- mom c ;;
      Ok (m * weight)
  | SumCrossection first second =>
      m1 <- mom first ;;
      m2 <- mom second ;;
      Ok (m1 + m2)
  | CompositeSection composite => mom composite
  end.

Fixpoint com (self : Crossection) : result point :=
  match self with
  | UnitSquare => Ok (0, 0)
  | ShiftedCrosssection c offset =>
      c0 <- com c ;;
      c1 <- com c ;;
      Ok (fst offset + fst c0, snd offset + snd c1)
  | ScaledCrossection c _ => com c
  | WeightedCrossection c _ => com c
  | SumCrossection first second =>
      '(x1, y1) <- com first ;;
      m1 <- area first ;;
      '(x2, y2) <- com second ;;
      m2 <- area second ;;
      x <- py_div (x1 * m1 + x2 * m2) (m1 + m2) ;;
      y <- py_div (y1 * m1 + y2 * m2) (m1 + m2) ;;
      Ok (x, y)
  | CompositeSection composite => com composite
  end.

(** *** Construction methods of [_Crossection] *)

Definition shift (self : Crossection) (offset : point) : Crossection :=
  ShiftedCrosssection self offset.

(** The function [scale] of the class [_Crossection]: what runs once the
    attribute lookup [self.scale] has reached the method.  For the call
    [self.scale(...)] on any receiver, see [call_scale]. *)
Definition scale (self : Crossection) (scale : pyval) : Crossection :=
  let scale :=
    if isinstance_float scale then
      match scale with
      | PyFloat x => PyTuple x x
      | _ => scale
      end
    else scale in
  ScaledCrossection self scale.

(** The node is an instance of [_ScaledCrossection]. *)
Definition is_scaled (self : Crossection) : bool :=
  match self with
  | ScaledCrossection _ _ => true
  | _ => false
  end.

(** The call [self.scale(v)].  The constructor of [_ScaledCrossection]
    stores the factor in the attribute [scale] of the instance, which
    hides the method of that name: on such a receiver the lookup finds
    the stored float, int, tuple or None, and calling it raises
    [TypeError].  On every other receiver the lookup finds the method. *)
Definition call_scale (self : Crossection) (v : pyval)
    : result Crossection :=
  match self with
  | ScaledCrossection _ _ => Raise TypeError
  | _ => Ok (scale self v)
  end.

Definition mul (self : Crossection) (weight : pyval) : result Crossection :=
  _ <- py_assert (isinstance_float_int weight) ;;
  match num_of weight with
  | Some w => Ok (WeightedCrossection self w)
  | None => Raise TypeError
  end.

Definition rmul (self : Crossection) (weight : pyval) : result Crossection :=
  mul self weight.

(** [(-1) * self]: [int] does not know the operand, so [__rmul__] runs. *)
Definition neg (self : Crossection) : result Crossection :=
  rmul self (PyInt (-1)).

Definition add (self other : Crossection) : Crossection :=
  SumCrossection self other.

Definition sub (self other : Crossection) : result Crossection :=
  n <- neg other ;;
  Ok (add self n).

Definition center (self : Crossection) : result Crossection :=
  '(x, y) <- com self ;;
  Ok (shift self (- x, - y)).

(** *** Named shapes *)

Definition Rectangle (x_side y_side : num) : Crossection :=
  CompositeSection (scale UnitSquare (PyTuple x_side y_side)).

(** *** Shapes used as examples *)

(** [Rectangle(2, 1)]. *)
Definition rectangle_2_1 : Crossection :=
  Rectangle (num_of_Z 2) (num_of_Z 1).

(** [(_UnitSquare() - _UnitSquare()) + _UnitSquare()]: the inner difference
    has area zero, the whole has area one. *)
Definition hollow_plus_square : result Crossection :=
  d <- sub UnitSquare UnitSquare ;;
  Ok (add d UnitSquare).

Definition hollow_plus_square_node : Crossection :=
  SumCrossection
    (SumCrossection UnitSquare (WeightedCrossection UnitSquare (num_of_Z (-1))))
    UnitSquare.

(** ** What the spec asks of a bounding-box union *)

Definition is_least (m a b : num) : Prop :=
  m <= a /\ m <= b /\ (m = a \/ m = b).

Definition is_greatest (m a b : num) : Prop :=
  a <= m /\ b <= m /\ (m = a \/ m = b).



(** Every [scale] field below the node is a tuple of two factors that are
    not negative. *)
Fixpoint scales_are_nonneg (self : Crossection) : bool :=
  match self with
  | UnitSquare => true
  | ShiftedCrosssection c _ => scales_are_nonneg c
  | ScaledCrossection c (PyTuple fx fy) =>
      Qle_bool 0 fx && Qle_bool 0 fy && scales_are_nonneg c
  | ScaledCrossection _ _ => false
  | WeightedCrossection c _ => scales_are_nonneg c
  | SumCrossection first second =>
      scales_are_nonneg first && scales_are_nonneg second
  | CompositeSection composite => scales_are_nonneg composite
  end.

(** A box whose lower corner is not above or right of its upper corner. *)
Definition box_ordered (b : box) : Prop :=
  fst (fst b) <= fst (snd b) /\ snd (fst b) <= snd (snd b).

(** ** The other named shapes *)

(** [AngleSection(side, wall)]: the value of its [_composite] property,
    which every property access of the class evaluates first.  The
    property raises when [center()] does. *)
Definition AngleSection (side wall : num) : result Crossection :=
  r <- sub (Rectangle side side)
           (shift (Rectangle (side - wall) (side - wall))
                  (wall / num_of_Z 2, wall / num_of_Z 2)) ;;
  centred <- center r ;;
  Ok (CompositeSection centred).

(** [IBeam(width, height, flange, web)]; [top + mid + bottom] is
    [(top + mid) + bottom]. *)
Definition IBeam (width height flange web : num) : Crossection :=
  let mid := Rectangle web (height - num_of_Z 2 * flange) in
  let top :=
    shift (Rectangle width flange) (0, (height - flange) / num_of_Z 2) in
  let bottom :=
    shift (Rectangle width flange) (0, (- (height - flange)) / num_of_Z 2) in
  CompositeSection (add (add top mid) bottom).

(** ** Beam under a point load *)

(** Python's [abs]. *)
Definition py_abs (x : num) : num :=
  if Qclt_le_dec x 0 then - x else x.

(** The dictionary [simply_supported_point_load] returns, one field per
    key. *)
Record load_result : Type := {
  c : num;
  max_deflection : num;
  max_stress : num
}.

(** [L], [E] and [F] are floats, as annotated. *)
Definition simply_supported_point_load
    (section : Crossection) (L E F : num) : result load_result :=
  I <- mom section ;;
  b0 <- bb section ;;
  b1 <- bb section ;;
  let c := py_max (py_abs (snd (fst b0))) (py_abs (snd (snd b1))) in
  let M_max := F * L / num_of_Z 4 in
  cube <- py_pow L 3 ;;
  max_deflection <- py_div (- F * cube) (num_of_Z 48 * E * I) ;;
  max_stress <- py_div (M_max * c) I ;;
  Ok {| c := c; max_deflection := max_deflection; max_stress := max_stress |}.

(** ** Numeric facts *)

Ltac qc_eval := apply Qc_is_canon; vm_compute; reflexivity.

(** [ring] looks for an equation over [Qc]. *)
Ltac num_ring := change num with Qc in *; ring.

Ltac qc_neq :=
  let H := fresh in
  intro H; apply (f_equal this) in H; vm_compute in H; discriminate H.

Ltac box_eval :=
  apply (f_equal Ok); repeat apply (f_equal2 (@pair _ _)); qc_eval.

Lemma Qc_eq_Qeq (a b : Qc) : a = b <-> (this a == this b)%Q.
Proof. split; [intros ->; reflexivity | apply Qc_is_canon]. Qed.

(** Moves a goal over [Qc] and its hypotheses to [Q], where [lra] and
    [nra] work. *)
Ltac qc_to_q :=
  change num with Qc in *;
  unfold twelfth, half, num_of_Z in *;
  repeat match goal with
  | H : @eq Qc _ _ |- _ => apply Qc_eq_Qeq in H
  | H : ~ @eq Qc _ _ |- _ => rewrite Qc_eq_Qeq in H
  end;
  try match goal with
  | |- @eq Qc _ _ => apply Qc_is_canon
  | |- ~ @eq Qc _ _ => rewrite Qc_eq_Qeq
  end;
  unfold Qcle, Qclt, Qcminus, Qcdiv, Qcplus, Qcmult, Qcopp, Qcinv, Q2Qc,
    inject_Z in *;
  cbn [this] in *;
  repeat (rewrite Qred_correct in * );
  change (/ 2)%Q with (1 # 2)%Q in *.

Ltac qc_lra := qc_to_q; lra.
Ltac qc_nra := qc_to_q; nra.

Lemma num_of_Z_opp_1 : num_of_Z (-1) = Qcopp 1.
Proof. qc_eval. Qed.

Lemma py_min_least (a b : num) : is_least (py_min a b) a b.
Proof.
  unfold is_least, py_min.
  destruct (Qclt_le_dec b a) as [Hlt | Hle].
  - repeat split.
    + apply Qclt_le_weak, Hlt.
    + apply Qcle_refl.
    + right; reflexivity.
  - repeat split.
    + apply Qcle_refl.
    + exact Hle.
    + left; reflexivity.
Qed.

Lemma py_max_greatest (a b : num) : is_greatest (py_max a b) a b.
Proof.
  unfold is_greatest, py_max.
  destruct (Qclt_le_dec a b) as [Hlt | Hle].
  - repeat split.
    + apply Qclt_le_weak, Hlt.
    + apply Qcle_refl.
    + right; reflexivity.
  - repeat split.
    + apply Qcle_refl.
    + exact Hle.
    + left; reflexivity.
Qed.

Lemma py_div_nonzero (a b : num) : b <> 0 -> py_div a b = Ok (a / b).
Proof.
  intros Hb. unfold py_div.
  destruct (Qc_eq_dec b 0) as [E | _]; [contradiction | reflexivity].
Qed.

Lemma py_div_zero (a b : num) : b = 0 -> py_div a b = Raise ZeroDivisionError.
Proof.
  intros Hb. unfold py_div.
  destruct (Qc_eq_dec b 0) as [_ | N]; [reflexivity | contradiction].
Qed.

(** ** What [area], [mom] and [bb] do on trees whose scales are tuples *)




(** The two accesses to [self.crossection.com] of a shifted node see the
    same value. *)
Lemma com_shift_once (A : Crossection) (dx dy : num) :
  com (shift A (dx, dy)) = ('(x, y) <- com A ;; Ok (dx + x, dy + y)).
Proof.
  cbn. destruct (com A) as [[x y] | e]; reflexivity.
Qed.

(** ** Laws of the combinators *)









(** ** Centre of mass of a sum *)

Lemma sub_node (A B : Crossection) :
  sub A B = Ok (SumCrossection A (WeightedCrossection B (num_of_Z (-1)))).
Proof. reflexivity. Qed.

Lemma cancel_self (a : num) : a + a * num_of_Z (-1) = 0.
Proof. rewrite num_of_Z_opp_1. ring. Qed.

Lemma com_sum_values (F S : Crossection) (c1 c2 : point) (a1 a2 : num) :
  com F = Ok c1 -> area F = Ok a1 -> com S = Ok c2 -> area S = Ok a2 ->
  com (SumCrossection F S) =
    (x <- py_div (fst c1 * a1 + fst c2 * a2) (a1 + a2) ;;
     y <- py_div (snd c1 * a1 + snd c2 * a2) (a1 + a2) ;;
     Ok (x, y)).
Proof.
  intros HcF HaF HcS HaS. cbn.
  rewrite HcF, HaF, HcS, HaS.
  destruct c1 as [x1 y1], c2 as [x2 y2]. reflexivity.
Qed.

Lemma com_self_difference (F : Crossection) (c : point) (a : num) :
  com F = Ok c -> area F = Ok a ->
  com (SumCrossection F (WeightedCrossection F (num_of_Z (-1)))) =
    Raise ZeroDivisionError.
Proof.
  intros HcF HaF.
  rewrite (com_sum_values F _ c c a (a * num_of_Z (-1)) HcF HaF).
  - rewrite py_div_zero by apply cancel_self. reflexivity.
  - cbn. exact HcF.
  - cbn. rewrite HaF. reflexivity.
Qed.

Lemma com_sum_first_raises (F S : Crossection) (e : exn) :
  com F = Raise e -> com (SumCrossection F S) = Raise e.
Proof.
  intros H. cbn. rewrite H. reflexivity.
Qed.



(** ** Centring *)

Lemma hollow_plus_square_built :
  hollow_plus_square = Ok hollow_plus_square_node.
Proof. reflexivity. Qed.

Lemma hollow_plus_square_area : area hollow_plus_square_node = Ok 1.
Proof. cbn. f_equal; qc_eval. Qed.

Lemma hollow_plus_square_com :
  com hollow_plus_square_node = Raise ZeroDivisionError.
Proof.
  apply com_sum_first_raises.
  apply (com_self_difference UnitSquare (0, 0) 1); reflexivity.
Qed.

(** C4, as the code has it.  For every shape [A] whose centre of mass is
    defined, say [(x, y)], [A.center()] is [A] shifted by [(-x, -y)] and
    the centre of mass of the result is exactly [(0, 0)]; when the centre
    of mass of [A] raises, [A.center()] raises the same fault. *)
Theorem center_com_origin (A : Crossection) :
  (forall x y : num,
     com A = Ok (x, y) ->
     center A = Ok (shift A (- x, - y))
     /\ com (shift A (- x, - y)) = Ok (0, 0))
  /\ (forall e : exn, com A = Raise e -> center A = Raise e).
Proof.
  split.
  - intros x y HA. split.
    + unfold center. rewrite HA. reflexivity.
    + assert (Ex : - x + x = 0) by ring.
      assert (Ey : - y + y = 0) by ring.
      rewrite com_shift_once, HA. unfold bind.
      rewrite Ex, Ey. reflexivity.
  - intros e HA. unfold center. rewrite HA. reflexivity.
Qed.

Lemma center_com_origin_witness :
  let A := shift rectangle_2_1 (0, 1) in
  com A = Ok (0 + 0, 1 + 0)
  /\ center A = Ok (shift A (- (0 + 0), - (1 + 0)))
  /\ com (shift A (- (0 + 0), - (1 + 0))) = Ok (0, 0).
Proof.
  intros A.
  assert (HA : com A = Ok (0 + 0, 1 + 0)) by reflexivity.
  split; [exact HA | ].
  exact (proj1 (center_com_origin A) (0 + 0) (1 + 0) HA).
Defined.

(** C4 as stated fails: [(_UnitSquare() - _UnitSquare()) + _UnitSquare()]
    has area one, not zero, yet [center()] raises [ZeroDivisionError]
    instead of returning a shape whose centre of mass is [(0, 0)]. *)
Lemma center_nonzero_area_counterexample :
  hollow_plus_square = Ok hollow_plus_square_node
  /\ area hollow_plus_square_node = Ok 1
  /\ (1 : num) <> 0
  /\ center hollow_plus_square_node = Raise ZeroDivisionError
  /\ ~ (forall (A : Crossection) (a : num),
          area A = Ok a -> a <> 0 ->
          exists S : Crossection, center A = Ok S /\ com S = Ok (0, 0)).
Proof.
  assert (Hc : center hollow_plus_square_node = Raise ZeroDivisionError).
  { unfold center. rewrite hollow_plus_square_com. reflexivity. }
  assert (Hone : (1 : num) <> 0) by qc_neq.
  split; [apply hollow_plus_square_built | ].
  split; [apply hollow_plus_square_area | ].
  split; [exact Hone | ].
  split; [exact Hc | ].
  intros Hclaim.
  destruct (Hclaim _ _ hollow_plus_square_area Hone) as [S [HS _]].
  rewrite Hc in HS. discriminate HS.
Qed.

(** ** Scalar arguments of [scale] *)

(** A float scalar is replaced by the pair of its two copies. *)
Lemma scale_float_uniform (A : Crossection) (x : num) :
  scale A (PyFloat x) = scale A (PyTuple x x).
Proof. reflexivity. Qed.

(** C5 on the code.  [scale] leaves an int scalar as it is: the node
    stores the bare int, and every access to its area, bounding box or
    moment raises, where the pair of two copies of the same number gives
    values.  At [_UnitSquare().scale(2)] the area access raises
    [TypeError]; [_UnitSquare().scale((2, 2))] has area 4. *)
Theorem scale_int_scalar_raises (A : Crossection) (n : Z) :
  scale A (PyInt n) = ScaledCrossection A (PyInt n)
  /\ (exists e : exn, area (scale A (PyInt n)) = Raise e)
  /\ (exists e : exn, bb (scale A (PyInt n)) = Raise e)
  /\ (exists e : exn, mom (scale A (PyInt n)) = Raise e)
  /\ area (scale UnitSquare (PyInt 2)) = Raise TypeError
  /\ area (scale UnitSquare (PyTuple (num_of_Z 2) (num_of_Z 2)))
     = Ok (num_of_Z 4).
Proof.
  split; [reflexivity | ].
  split; [cbn; destruct (area A) as [a | e]; cbn; eauto | ].
  split; [cbn; destruct (bb A) as [[[? ?] [? ?]] | e]; cbn; eauto | ].
  split; [cbn; destruct (mom A) as [m | e]; cbn; eauto | ].
  split; [reflexivity | ].
  cbn. apply (f_equal Ok). qc_eval.
Qed.

(** ** Rectangle *)

(** C8.  [Rectangle(width, height)] answers every property as the unit
    square scaled by [(width, height)] does.  [Rectangle(2, 1)] has area
    2, bounding box [((-1, -0.5), (1, 0.5))], moment 1/6 and centre of
    mass [(0, 0)]; the unit square has area 1, moment 1/12, bounding box
    [((-0.5, -0.5), (0.5, 0.5))] and centre of mass [(0, 0)]. *)
Theorem rectangle_properties :
  (forall w h : num,
     let S := scale UnitSquare (PyTuple w h) in
     area (Rectangle w h) = area S /\ bb (Rectangle w h) = bb S
     /\ mom (Rectangle w h) = mom S /\ com (Rectangle w h) = com S)
  /\ area rectangle_2_1 = Ok (num_of_Z 2)
  /\ bb rectangle_2_1 = Ok ((- (1), - half), (1, half))
  /\ mom rectangle_2_1 = Ok (1 / num_of_Z 6)
  /\ com rectangle_2_1 = Ok (0, 0)
  /\ area UnitSquare = Ok 1
  /\ mom UnitSquare = Ok (1 / num_of_Z 12)
  /\ bb UnitSquare = Ok ((- half, - half), (half, half))
  /\ com UnitSquare = Ok (0, 0).
Proof.
  split; [intros w h S; repeat split | ].
  split; [cbn; apply (f_equal Ok); qc_eval | ].
  split; [cbn; box_eval | ].
  split; [cbn; apply (f_equal Ok); qc_eval | ].
  repeat split.
Qed.

(** ** The multiplication operator *)

(** C9.  [A * w] with [w] neither a float nor an int raises
    [AssertionError] when the product is formed: no node is built, so no
    property access is reached.  With [w] a float or an int the weighted
    node is built. *)
Theorem mul_asserts_numeric (A : Crossection) (w : pyval) :
  (isinstance_float_int w = false -> mul A w = Raise AssertionError)
  /\ (isinstance_float_int w = true ->
      exists x : num,
        num_of w = Some x /\ mul A w = Ok (WeightedCrossection A x)).
Proof.
  split; intros Hw; destruct w; cbn in *; try discriminate;
    try reflexivity; eauto.
Qed.

Lemma mul_asserts_numeric_witness :
  (isinstance_float_int PyNone = false
   /\ mul rectangle_2_1 PyNone = Raise AssertionError)
  /\ (isinstance_float_int (PyFloat half) = true
      /\ exists x : num,
           num_of (PyFloat half) = Some x
           /\ mul rectangle_2_1 (PyFloat half)
              = Ok (WeightedCrossection rectangle_2_1 x)).
Proof.
  split.
  - split; [reflexivity | ].
    exact (proj1 (mul_asserts_numeric rectangle_2_1 PyNone) eq_refl).
  - split; [reflexivity | ].
    exact (proj2 (mul_asserts_numeric rectangle_2_1 (PyFloat half)) eq_refl).
Defined.

(** C10.  [w * A] is [A * w]: the reflected product calls the product.
    For a numeric [w] both build the weighted node over [A] with weight
    [w], so both have the same area, bounding box, moment and centre of
    mass; for any other [w] both raise [AssertionError]. *)
Theorem rmul_is_mul (A : Crossection) (w : pyval) :
  rmul A w = mul A w
  /\ (forall x : num,
        num_of w = Some x ->
        exists L R : Crossection,
          rmul A w = Ok L /\ mul A w = Ok R
          /\ L = WeightedCrossection A x /\ R = WeightedCrossection A x
          /\ area L = area R /\ bb L = bb R
          /\ mom L = mom R /\ com L = com R)
  /\ (num_of w = None ->
      rmul A w = Raise AssertionError /\ mul A w = Raise AssertionError).
Proof.
  split; [reflexivity | split].
  - intros x Hw.
    exists (WeightedCrossection A x), (WeightedCrossection A x).
    assert (Hm : mul A w = Ok (WeightedCrossection A x)).
    { unfold mul. destruct w; cbn in *; try discriminate;
        injection Hw as <-; reflexivity. }
    unfold rmul. repeat split; exact Hm.
  - intros Hw. unfold rmul, mul.
    destruct w; cbn in *; try discriminate; split; reflexivity.
Qed.

Lemma rmul_is_mul_witness :
  (num_of (PyFloat half) = Some half
   /\ exists L R : Crossection,
        rmul UnitSquare (PyFloat half) = Ok L
        /\ mul UnitSquare (PyFloat half) = Ok R
        /\ L = WeightedCrossection UnitSquare half
        /\ R = WeightedCrossection UnitSquare half
        /\ area L = area R /\ bb L = bb R
        /\ mom L = mom R /\ com L = com R)
  /\ (num_of PyNone = None
      /\ rmul UnitSquare PyNone = Raise AssertionError
      /\ mul UnitSquare PyNone = Raise AssertionError).
Proof.
  split.
  - split; [reflexivity | ].
    exact (proj1 (proj2 (rmul_is_mul UnitSquare (PyFloat half))) half eq_refl).
  - split; [reflexivity | ].
    exact (proj2 (proj2 (rmul_is_mul UnitSquare PyNone)) eq_refl).
Defined.

(** ** The spec's worked values *)

(** [Rectangle(2, 1).shift((0, 1))]: moment 1/6 + 2 = 13/6, centre of mass
    [(0, 1)]. *)
Example shifted_rectangle_values :
  mom (shift rectangle_2_1 (0, 1)) = Ok (num_of_Z 13 / num_of_Z 6)
  /\ com (shift rectangle_2_1 (0, 1)) = Ok (0, 1).
Proof.
  split; cbn; [apply (f_equal Ok); qc_eval | box_eval].
Qed.

(** Negating twice restores area and moment. *)
Lemma double_negation (A : Crossection) :
  exists N NN : Crossection,
    neg A = Ok N /\ neg N = Ok NN
    /\ area NN = area A /\ mom NN = mom A.
Proof.
  do 2 eexists. split; [reflexivity | split; [reflexivity | ]].
  cbn [area mom]. rewrite num_of_Z_opp_1.
  split.
  - destruct (area A) as [a | e]; cbn [bind];
      [apply (f_equal Ok); num_ring | reflexivity].
  - destruct (mom A) as [m | e]; cbn [bind];
      [apply (f_equal Ok); num_ring | reflexivity].
Qed.

(** ** Which faults the properties raise *)

Lemma area_fault (A : Crossection) (e : exn) :
  area A = Raise e -> e = TypeError.
Proof.
  induction A as [ | c0 IH off | c0 IH sc | c0 IH w | f IHf s IHs | c0 IH ];
    cbn; intros H; auto; try discriminate.
  - destruct (area c0) as [a | e0]; cbn in H.
    + destruct sc; cbn in H; congruence.
    + injection H as <-. auto.
  - destruct (area c0) as [a | e0]; cbn in H; [discriminate | ].
    injection H as <-. auto.
  - destruct (area f) as [a1 | e1]; cbn in H.
    + destruct (area s) as [a2 | e2]; cbn in H; [discriminate | ].
      injection H as <-. auto.
    + injection H as <-. auto.
Qed.

Lemma py_pow_fault (x : num) (n : nat) (e : exn) :
  py_pow x n = Raise e -> e = OverflowError.
Proof.
  unfold py_pow. destruct (float_overflows (x ^ n)); congruence.
Qed.

Lemma mom_fault (A : Crossection) (e : exn) :
  mom A = Raise e -> e = TypeError \/ e = OverflowError.
Proof.
  induction A as [ | c0 IH off | c0 IH sc | c0 IH w | f IHf s IHs | c0 IH ];
    cbn; intros H; auto; try discriminate.
  - destruct (mom c0) as [m | e0]; cbn in H.
    + destruct (area c0) as [a | e1] eqn:Ha; cbn in H; [discriminate | ].
      injection H as <-. left. exact (area_fault c0 e1 Ha).
    + injection H as <-. auto.
  - destruct (mom c0) as [m | e0]; cbn in H.
    + destruct sc as [ | | fx fy | ]; cbn in H; try (left; congruence).
      destruct (py_pow fy 3) as [p | e1] eqn:Hp; cbn in H; [discriminate | ].
      injection H as <-. right. exact (py_pow_fault _ _ _ Hp).
    + injection H as <-. auto.
  - destruct (mom c0) as [m | e0]; cbn in H; [discriminate | ].
    injection H as <-. auto.
  - destruct (mom f) as [m1 | e1]; cbn in H.
    + destruct (mom s) as [m2 | e2]; cbn in H; [discriminate | ].
      injection H as <-. auto.
    + injection H as <-. auto.
Qed.

Lemma bb_fault (A : Crossection) (e : exn) :
  bb A = Raise e -> e = TypeError.
Proof.
  induction A as [ | c0 IH off | c0 IH sc | c0 IH w | f IHf s IHs | c0 IH ];
    cbn; intros H; auto; try discriminate.
  - destruct (bb c0) as [[[? ?] [? ?]] | e0]; cbn in H.
    + destruct off; discriminate.
    + injection H as <-. auto.
  - destruct (bb c0) as [[[? ?] [? ?]] | e0]; cbn in H.
    + destruct sc; cbn in H; congruence.
    + injection H as <-. auto.
  - destruct (bb f) as [[[? ?] [? ?]] | e1]; cbn in H.
    + destruct (bb s) as [[[? ?] [? ?]] | e2]; cbn in H; [discriminate | ].
      injection H as <-. auto.
    + injection H as <-. auto.
Qed.

Lemma py_div_fault (a b : num) (e : exn) :
  py_div a b = Raise e -> e = ZeroDivisionError.
Proof.
  unfold py_div. destruct (Qc_eq_dec b 0); congruence.
Qed.

Lemma com_fault (A : Crossection) (e : exn) :
  com A = Raise e -> e = TypeError \/ e = ZeroDivisionError.
Proof.
  induction A as [ | c0 IH off | c0 IH sc | c0 IH w | f IHf s IHs | c0 IH ];
    cbn; intros H; auto; try discriminate.
  - destruct (com c0) as [p | e0]; cbn in H; [discriminate | ].
    injection H as <-. auto.
  - destruct (com f) as [[x1 y1] | e1]; cbn in H;
      [ | injection H as <-; auto].
    destruct (area f) as [m1 | e1] eqn:Hf; cbn in H;
      [ | injection H as <-; left; exact (area_fault f e1 Hf)].
    destruct (com s) as [[x2 y2] | e2]; cbn in H;
      [ | injection H as <-; auto].
    destruct (area s) as [m2 | e2] eqn:Hs; cbn in H;
      [ | injection H as <-; left; exact (area_fault s e2 Hs)].
    destruct (py_div (x1 * m1 + x2 * m2) (m1 + m2)) as [x | ex] eqn:Hx;
      cbn in H; [ | injection H as <-; right; exact (py_div_fault _ _ _ Hx)].
    destruct (py_div (y1 * m1 + y2 * m2) (m1 + m2)) as [y | ey] eqn:Hy;
      cbn in H; [discriminate | ].
    injection H as <-. right. exact (py_div_fault _ _ _ Hy).
Qed.



(** Whatever the tree, a fault of [area] or [bb] is a [TypeError] (a
    scale field that is not a tuple), a fault of [mom] is a [TypeError]
    or an [OverflowError] (the cube of a scale factor), and a fault of
    [com] is a [TypeError] or a [ZeroDivisionError]. *)
Theorem property_fault_kinds (A : Crossection) (e : exn) :
  (area A = Raise e -> e = TypeError)
  /\ (mom A = Raise e -> e = TypeError \/ e = OverflowError)
  /\ (bb A = Raise e -> e = TypeError)
  /\ (com A = Raise e -> e = TypeError \/ e = ZeroDivisionError).
Proof.
  split; [apply area_fault | ].
  split; [apply mom_fault | ].
  split; [apply bb_fault | apply com_fault].
Qed.

Lemma property_fault_kinds_witness :
  let huge := num_of_Z (2 ^ 400) in
  area (scale UnitSquare (PyInt 2)) = Raise TypeError
  /\ mom (Rectangle 1 huge) = Raise OverflowError
  /\ com hollow_plus_square_node = Raise ZeroDivisionError
  /\ (TypeError = TypeError)
  /\ (OverflowError = TypeError \/ OverflowError = OverflowError)
  /\ (ZeroDivisionError = TypeError \/ ZeroDivisionError = ZeroDivisionError).
Proof.
  intros huge.
  assert (Ha : area (scale UnitSquare (PyInt 2)) = Raise TypeError)
    by reflexivity.
  assert (Hm : mom (Rectangle 1 huge) = Raise OverflowError)
    by (vm_compute; reflexivity).
  split; [exact Ha | ].
  split; [exact Hm | ].
  split; [exact hollow_plus_square_com | ].
  split; [ | split].
  - exact (proj1 (property_fault_kinds _ _) Ha).
  - exact (proj1 (proj2 (property_fault_kinds _ _)) Hm).
  - exact (proj2 (proj2 (proj2 (property_fault_kinds _ _)))
             hollow_plus_square_com).
Defined.



(** ** How the combinators compose *)

Ltac q_simpl :=
  cbn [area bb mom com shift scale add bind fst snd getitem0 getitem1 unpack
       isinstance_float].

Lemma Ok_inj {T : Type} (a b : T) : Ok a = Ok b -> a = b.
Proof. intros H. injection H as H. exact H. Qed.


Ltac pair_ring :=
  apply (f_equal Ok); repeat apply (f_equal2 (@pair _ _));
  cbn [Qcpower]; num_ring.


Lemma call_scale_node (A S : Crossection) (v : pyval) :
  call_scale A v = Ok S -> is_scaled A = false /\ S = scale A v.
Proof.
  intros H. destruct A; cbn in H; try discriminate;
    (split; [reflexivity | congruence]).
Qed.

(** A shape can go through [scale] once only: on the node that a call
    of [scale] returned, any further call of [scale] raises [TypeError],
    whatever the two arguments. *)
Theorem scale_twice_raises (A S : Crossection) (v w : pyval) :
  call_scale A v = Ok S -> call_scale S w = Raise TypeError.
Proof.
  intros H. apply call_scale_node in H as [_ ->]. reflexivity.
Qed.

Lemma scale_twice_raises_witness :
  call_scale UnitSquare (PyTuple (num_of_Z 2) 1)
    = Ok (ScaledCrossection UnitSquare (PyTuple (num_of_Z 2) 1))
  /\ call_scale (ScaledCrossection UnitSquare (PyTuple (num_of_Z 2) 1))
       (PyFloat half)
     = Raise TypeError.
Proof.
  assert (H : call_scale UnitSquare (PyTuple (num_of_Z 2) 1)
              = Ok (ScaledCrossection UnitSquare (PyTuple (num_of_Z 2) 1)))
    by reflexivity.
  split; [exact H | ].
  exact (scale_twice_raises UnitSquare _ _ (PyFloat half) H).
Defined.





(** ** Sums and differences *)




Lemma py_min_assoc (a b d : num) :
  py_min (py_min a b) d = py_min a (py_min b d).
Proof.
  unfold py_min.
  destruct (Qclt_le_dec b a), (Qclt_le_dec d b);
    repeat match goal with
           | |- context [Qclt_le_dec ?x ?y] => destruct (Qclt_le_dec x y)
           end; try reflexivity; qc_lra.
Qed.

Lemma py_max_assoc (a b d : num) :
  py_max (py_max a b) d = py_max a (py_max b d).
Proof.
  unfold py_max.
  destruct (Qclt_le_dec a b), (Qclt_le_dec b d);
    repeat match goal with
           | |- context [Qclt_le_dec ?x ?y] => destruct (Qclt_le_dec x y)
           end; try reflexivity; qc_lra.
Qed.

Ltac same_fault :=
  repeat match goal with
         | H : area _ = Raise _ |- _ => apply area_fault in H
         | H : bb _ = Raise _ |- _ => apply bb_fault in H
         end; subst; reflexivity.


(** The grouping of three summands does not change the bounding box of
    the sum, faults included. *)
Theorem sum_regroups (A B D : Crossection) :
  bb (add (add A B) D) = bb (add A (add B D)).
Proof.
  q_simpl.
  destruct (bb A) as [[[x1 y1] [x2 y2]] | e1] eqn:HA,
           (bb B) as [[[x3 y3] [x4 y4]] | e2] eqn:HB,
           (bb D) as [[[x5 y5] [x6 y6]] | e3] eqn:HD;
    q_simpl; try reflexivity; try same_fault.
  rewrite !py_min_assoc, !py_max_assoc. reflexivity.
Qed.

(** When the centre of mass and the area of both operands are defined,
    the centre of mass of a sum does not depend on the order of the
    operands: both orders return the same point or both raise
    [ZeroDivisionError]. *)
Theorem sum_com_commutes
    (A B : Crossection) (c1 c2 : point) (a1 a2 : num) :
  com A = Ok c1 -> area A = Ok a1 -> com B = Ok c2 -> area B = Ok a2 ->
  com (add A B) = com (add B A).
Proof.
  intros HcA HaA HcB HaB. unfold add.
  rewrite (com_sum_values A B c1 c2 a1 a2 HcA HaA HcB HaB).
  rewrite (com_sum_values B A c2 c1 a2 a1 HcB HaB HcA HaA).
  replace (a2 + a1) with (a1 + a2) by num_ring.
  replace (fst c2 * a2 + fst c1 * a1) with (fst c1 * a1 + fst c2 * a2)
    by num_ring.
  replace (snd c2 * a2 + snd c1 * a1) with (snd c1 * a1 + snd c2 * a2)
    by num_ring.
  reflexivity.
Qed.

Lemma sum_com_commutes_witness :
  let A := UnitSquare in
  let B := shift rectangle_2_1 (1, 1) in
  com A = Ok (0, 0) /\ area A = Ok 1
  /\ com B = Ok (1 + 0, 1 + 0) /\ area B = area rectangle_2_1
  /\ com (add A B) = com (add B A).
Proof.
  intros A B.
  split; [reflexivity | split; [reflexivity | split; [reflexivity | ]]].
  split; [reflexivity | ].
  exact (sum_com_commutes A B (0, 0) (1 + 0, 1 + 0) 1 _
           eq_refl eq_refl eq_refl eq_refl).
Defined.

(** ** Bounding boxes stay the right way round *)

Lemma py_min_le_l (a b : num) : py_min a b <= a.
Proof. exact (proj1 (py_min_least a b)). Qed.

Lemma py_max_ge_l (a b : num) : a <= py_max a b.
Proof. exact (proj1 (py_max_greatest a b)). Qed.

(** When no scale factor in the tree is negative, [bb] returns a box whose
    lower corner is below and left of its upper corner (or equal);
    shifts, weights of either sign and sums keep it so. *)
Theorem bb_ordered (A : Crossection) :
  scales_are_nonneg A = true ->
  exists b : box, bb A = Ok b /\ box_ordered b.
Proof.
  unfold box_ordered.
  induction A as [ | c0 IH off | c0 IH sc | c0 IH w | f IHf s IHs | c0 IH ];
    cbn [scales_are_nonneg bb]; intros H.
  - eexists. split; [reflexivity | ]. cbn [fst snd]. split; qc_lra.
  - destruct (IH H) as [[[xmin ymin] [xmax ymax]] [-> [Hx Hy]]].
    destruct off as [dx dy]. cbn [bind fst snd] in *.
    eexists. split; [reflexivity | ]. cbn [fst snd]. split; qc_lra.
  - destruct sc as [ | | fx fy | ]; try discriminate.
    apply andb_true_iff in H as [H Hc]. apply andb_true_iff in H as [Hfx Hfy].
    apply Qle_bool_iff in Hfx, Hfy.
    destruct (IH Hc) as [[[xmin ymin] [xmax ymax]] [-> [Hx Hy]]].
    cbn [bind unpack fst snd] in *.
    eexists. split; [reflexivity | ]. cbn [fst snd].
    split; apply Qcmult_le_compat_r; assumption.
  - exact (IH H).
  - apply andb_true_iff in H as [Hf Hs].
    destruct (IHf Hf) as [[[x1 y1] [x2 y2]] [-> [Hx1 Hy1]]].
    destruct (IHs Hs) as [[[x3 y3] [x4 y4]] [-> [Hx2 Hy2]]].
    cbn [bind fst snd] in *.
    eexists. split; [reflexivity | ]. cbn [fst snd]. split.
    + apply Qcle_trans with x1; [apply py_min_le_l | ].
      apply Qcle_trans with x2; [exact Hx1 | apply py_max_ge_l].
    + apply Qcle_trans with y1; [apply py_min_le_l | ].
      apply Qcle_trans with y2; [exact Hy1 | apply py_max_ge_l].
  - exact (IH H).
Qed.

Lemma bb_ordered_witness :
  scales_are_nonneg (IBeam 1 1 half half) = true
  /\ exists b : box, bb (IBeam 1 1 half half) = Ok b /\ box_ordered b.
Proof.
  split; [reflexivity | ].
  exact (bb_ordered (IBeam 1 1 half half) eq_refl).
Defined.

(** ** The I-beam *)

Lemma rectangle_values (w h : num) :
  area (Rectangle w h) = Ok (w * h)
  /\ bb (Rectangle w h) = Ok ((- half * w, - half * h), (half * w, half * h))
  /\ com (Rectangle w h) = Ok (0, 0).
Proof.
  unfold Rectangle. cbn [area bb com scale isinstance_float].
  cbn [bind getitem0 getitem1 unpack].
  split; [pair_ring | split; reflexivity].
Qed.

Ltac rect_rewrite :=
  repeat match goal with
         | |- context [area (Rectangle ?w ?h)] =>
             rewrite (proj1 (rectangle_values w h))
         | |- context [bb (Rectangle ?w ?h)] =>
             rewrite (proj1 (proj2 (rectangle_values w h)))
         | |- context [com (Rectangle ?w ?h)] =>
             rewrite (proj2 (proj2 (rectangle_values w h)))
         end.

Lemma num_of_Z_nonzero (n : Z) : n <> 0%Z -> num_of_Z n <> 0.
Proof.
  intros Hn H. apply Qc_eq_Qeq in H. unfold num_of_Z, Q2Qc in H.
  cbn [this] in H. rewrite !Qred_correct in H.
  unfold Qeq, inject_Z in H. cbn in H. lia.
Qed.

Lemma num_of_Z_2_nonzero : num_of_Z 2 <> 0.
Proof. apply num_of_Z_nonzero. lia. Qed.

(** The I-beam is symmetric about the [y] axis: whenever its centre of
    mass is defined, the [x] coordinate is exactly 0. *)
Theorem ibeam_com_x_zero (width height flange web x y : num) :
  com (IBeam width height flange web) = Ok (x, y) -> x = 0.
Proof.
  intros H.
  set (d := (height - flange) / num_of_Z 2) in *.
  set (d' := (- (height - flange)) / num_of_Z 2) in *.
  set (top := shift (Rectangle width flange) (0, d)) in *.
  set (mid := Rectangle web (height - num_of_Z 2 * flange)) in *.
  set (bottom := shift (Rectangle width flange) (0, d')) in *.
  change (com (SumCrossection (SumCrossection top mid) bottom) = Ok (x, y))
    in H.
  assert (Hct : com top = Ok (0 + 0, d + 0)).
  { unfold top. rewrite com_shift_once. rect_rewrite. reflexivity. }
  assert (Hcb : com bottom = Ok (0 + 0, d' + 0)).
  { unfold bottom. rewrite com_shift_once. rect_rewrite. reflexivity. }
  assert (Hcm : com mid = Ok (0, 0)).
  { unfold mid. rect_rewrite. reflexivity. }
  assert (Hat : area top = Ok (width * flange)).
  { unfold top. cbn [shift area]. rect_rewrite. reflexivity. }
  assert (Hab : area bottom = Ok (width * flange)).
  { unfold bottom. cbn [shift area]. rect_rewrite. reflexivity. }
  assert (Ham : area mid = Ok (web * (height - num_of_Z 2 * flange))).
  { unfold mid. rect_rewrite. reflexivity. }
  assert (Hatm : area (SumCrossection top mid) =
                 Ok (width * flange
                     + web * (height - num_of_Z 2 * flange))).
  { cbn [area]. rewrite Hat, Ham. reflexivity. }
  set (a1 := width * flange) in *.
  set (a2 := web * (height - num_of_Z 2 * flange)) in *.
  destruct (Qc_eq_dec (a1 + a2) 0) as [Hz | Hnz].
  - rewrite (com_sum_first_raises _ bottom ZeroDivisionError) in H;
      [discriminate H | ].
    rewrite (com_sum_values top mid _ _ _ _ Hct Hat Hcm Ham).
    rewrite py_div_zero by exact Hz. reflexivity.
  - assert (Hctm : com (SumCrossection top mid) =
                   Ok (((0 + 0) * a1 + 0 * a2) / (a1 + a2),
                       ((d + 0) * a1 + 0 * a2) / (a1 + a2))).
    { rewrite (com_sum_values top mid _ _ _ _ Hct Hat Hcm Ham).
      rewrite !py_div_nonzero by exact Hnz. reflexivity. }
    rewrite (com_sum_values _ bottom _ _ _ _ Hctm Hatm Hcb Hab) in H.
    destruct (Qc_eq_dec (a1 + a2 + a1) 0) as [Hz2 | Hnz2].
    + rewrite py_div_zero in H by exact Hz2. discriminate H.
    + rewrite !py_div_nonzero in H by exact Hnz2.
      cbn [bind fst snd] in H. apply Ok_inj in H.
      apply (f_equal fst) in H. cbn [fst] in H. rewrite <- H.
      change num with Qc in *. field. auto.
Qed.

Lemma ibeam_com_x_zero_witness :
  exists x y : num,
    com (IBeam 1 (num_of_Z 2) half half) = Ok (x, y) /\ x = 0.
Proof.
  assert (Hex : exists p, com (IBeam 1 (num_of_Z 2) half half) = Ok p).
  { destruct (com (IBeam 1 (num_of_Z 2) half half)) as [p | e] eqn:Hp;
      [exists p; reflexivity | vm_compute in Hp; discriminate Hp]. }
  destruct Hex as [[x y] Hp]. exists x, y.
  split; [exact Hp | ].
  exact (ibeam_com_x_zero 1 (num_of_Z 2) half half x y Hp).
Defined.



(** ** The angle section *)


(** Whenever the defining expression of [AngleSection(side, wall)] is
    built, its centre of mass is exactly [(0, 0)]. *)
Theorem anglesection_centred (side wall : num) (S : Crossection) :
  AngleSection side wall = Ok S -> com S = Ok (0, 0).
Proof.
  unfold AngleSection. rewrite sub_node. cbn [bind]. unfold center.
  set (r := SumCrossection _ _).
  destruct (com r) as [[x y] | e] eqn:Hr; cbn [bind]; [ | discriminate].
  intros H. apply Ok_inj in H. subst S.
  cbn [com]. rewrite com_shift_once, Hr. cbn [bind].
  pair_ring.
Qed.

Lemma anglesection_centred_witness :
  exists S : Crossection,
    AngleSection 1 half = Ok S /\ com S = Ok (0, 0).
Proof.
  assert (Hex : exists S, AngleSection 1 half = Ok S).
  { destruct (AngleSection 1 half) as [S | e] eqn:HS;
      [exists S; reflexivity | vm_compute in HS; discriminate HS]. }
  destruct Hex as [S HS]. exists S.
  split; [exact HS | ].
  exact (anglesection_centred 1 half S HS).
Defined.



(** ** Beam under a point load *)

Lemma py_abs_bounds (x : num) : 0 <= py_abs x /\ x <= py_abs x /\ - x <= py_abs x.
Proof.
  unfold py_abs. destruct (Qclt_le_dec x 0); repeat split; qc_lra.
Qed.

Lemma load_denominator (E I : num) :
  num_of_Z 48 * E * I = 0 <-> E = 0 \/ I = 0.
Proof.
  assert (H48 : num_of_Z 48 <> 0) by (apply num_of_Z_nonzero; lia).
  split.
  - intros H. apply Qcmult_integral in H as [H | H]; [ | auto].
    apply Qcmult_integral in H as [H | H]; [contradiction | auto].
  - intros [-> | ->]; num_ring.
Qed.

(** With the moment [I] and the bounding box of the section defined,
    [simply_supported_point_load] raises [OverflowError] when the cube of
    [L] is beyond the float range, whatever [E] and [I] are; and when the
    cube is within range, it raises [ZeroDivisionError] if [E] or [I] is
    zero. *)
Theorem load_faults
    (section : Crossection) (I : num) (b : box) (L E F : num) :
  mom section = Ok I -> bb section = Ok b ->
  (float_overflows (L ^ 3) = true ->
     simply_supported_point_load section L E F = Raise OverflowError)
  /\ (float_overflows (L ^ 3) = false ->
      E = 0 \/ I = 0 ->
      simply_supported_point_load section L E F = Raise ZeroDivisionError).
Proof.
  intros Hm Hb. unfold simply_supported_point_load.
  rewrite Hm, Hb. cbn [bind]. unfold py_pow. split.
  - intros H. rewrite H. reflexivity.
  - intros H Hz. rewrite H. cbn [bind].
    rewrite py_div_zero; [reflexivity | ].
    apply load_denominator. exact Hz.
Qed.

Lemma load_faults_witness :
  let huge := num_of_Z (2 ^ 400) in
  mom UnitSquare = Ok twelfth
  /\ bb UnitSquare = Ok ((- half, - half), (half, half))
  /\ float_overflows (huge ^ 3) = true
  /\ simply_supported_point_load UnitSquare huge 0 1 = Raise OverflowError
  /\ float_overflows (1 ^ 3) = false
  /\ simply_supported_point_load UnitSquare 1 0 1 = Raise ZeroDivisionError.
Proof.
  intros huge.
  assert (Hout : float_overflows (huge ^ 3) = true)
    by (vm_compute; reflexivity).
  assert (Hin : float_overflows (1 ^ 3) = false) by (vm_compute; reflexivity).
  split; [reflexivity | split; [reflexivity | ]].
  split; [exact Hout | ].
  split; [exact (proj1 (load_faults UnitSquare twelfth _ huge 0 1
                          eq_refl eq_refl) Hout) | ].
  split; [exact Hin | ].
  exact (proj2 (load_faults UnitSquare twelfth _ 1 0 1 eq_refl eq_refl)
           Hin (or_introl eq_refl)).
Defined.

(** When the call returns, [c] is not negative and bounds the two [y]
    coordinates of the bounding box in absolute value. *)
Theorem load_c_bounds
    (section : Crossection) (b : box) (L E F : num) (r : load_result) :
  bb section = Ok b ->
  simply_supported_point_load section L E F = Ok r ->
  0 <= c r
  /\ - c r <= snd (fst b) <= c r
  /\ - c r <= snd (snd b) <= c r.
Proof.
  intros Hb H. unfold simply_supported_point_load in H.
  rewrite Hb in H.
  destruct (mom section) as [I | e]; cbn [bind] in H; [ | discriminate].
  destruct (py_pow L 3) as [cube | e]; cbn [bind] in H; [ | discriminate].
  destruct (py_div _ _) as [d | e] in H; cbn [bind] in H; [ | discriminate].
  destruct (py_div _ _) as [s | e] in H; cbn [bind] in H; [ | discriminate].
  apply Ok_inj in H. subst r. cbn [c].
  destruct b as [[xmin ymin] [xmax ymax]]. cbn [fst snd].
  destruct (py_abs_bounds ymin) as [H0 [H1 H2]].
  destruct (py_abs_bounds ymax) as [H3 [H4 H5]].
  destruct (py_max_greatest (py_abs ymin) (py_abs ymax)) as [G1 [G2 _]].
  repeat split; qc_lra.
Qed.

Lemma load_c_bounds_witness :
  exists r : load_result,
    bb UnitSquare = Ok ((- half, - half), (half, half))
    /\ simply_supported_point_load UnitSquare 1 1 1 = Ok r
    /\ 0 <= c r
    /\ - c r <= - half <= c r
    /\ - c r <= half <= c r.
Proof.
  assert (Hex : exists r, simply_supported_point_load UnitSquare 1 1 1 = Ok r).
  { destruct (simply_supported_point_load UnitSquare 1 1 1) as [r | e] eqn:Hr;
      [exists r; reflexivity | vm_compute in Hr; discriminate Hr]. }
  destruct Hex as [r Hr]. exists r.
  assert (Hb : bb UnitSquare = Ok ((- half, - half), (half, half)))
    by reflexivity.
  split; [exact Hb | ].
  split; [exact Hr | ].
  exact (load_c_bounds UnitSquare _ 1 1 1 r Hb Hr).
Defined.
